(** * wasm_thread: [src/wasm32/js/module_worker_start.js]

    The module keeps one module-level binding, [_worker], and exports one
    function, [startWorker], which constructs a module-typed [Worker] on the
    sibling script [./web_worker_module.js], remembers it and returns it.

    The two constructors it calls, [URL] and [Worker], belong to the host
    platform.  They are taken as a [Platform] record: what the URL parser
    answers and whether the platform refuses a spawn are the platform's
    business, and every theorem below holds for all of them.  The spec's
    precondition that the host provides both constructors is taken for
    granted: the global names [URL] and [Worker] resolve. *)

From Stdlib Require Import String Ascii List Arith Lia Bool Sorted.
Import ListNotations.
Open Scope string_scope.
Open Scope list_scope.

Set Implicit Arguments.

(** ** Values *)

(** The JavaScript values that can reach this module.  A [URL] object is
    identified by its serialised [href] (nothing here observes its
    identity); a [Worker] object is identified by the index of its thread
    in the platform's thread table, which is its object identity. *)
Inductive value : Type :=
| VUndefined
| VNull
| VString (s : string)
| VError (name message : string)
| VURL (href : string)
| VWorker (id : nat).

Definition value_eq_dec (a b : value) : {a = b} + {a <> b}.
Proof.
  decide equality; try apply string_dec; apply Nat.eq_dec.
Defined.

(** [a === b] *)
Definition strict_equal (a b : value) : bool :=
  if value_eq_dec a b then true else false.

Definition is_nullish (v : value) : bool :=
  match v with
  | VUndefined | VNull => true
  | _ => false
  end.

Definition is_worker (v : value) : bool :=
  match v with
  | VWorker _ => true
  | _ => false
  end.

(** The object literal [{ type: ..., name: ... }] given to [Worker]. *)
Record WorkerOptions : Type := mkOptions {
  type : string;
  name : string
}.

(** One background thread of the platform's thread table. *)
Record Thread : Type := mkThread {
  scriptURL : value;
  options : WorkerOptions
}.

(** The history of the process: its calls of platform constructors and
    its assignments to [_worker], oldest first. *)
Inductive event : Type :=
| ENewURL (url base : string)
| ENewWorker (script : value) (opts : WorkerOptions)
| EAssign_worker (v : value).

(** ** The host platform *)

(** [URL_parse url base] is the outcome of [new URL(url, base)]: the thrown
    value, or the [href] of the resulting URL.  [Worker_check history script
    opts] is the platform's verdict on [new Worker(script, opts)] after
    [history]: [Some e] when the constructor throws [e], [None] when the
    thread is spawned. *)
Record Platform : Type := mkPlatform {
  URL_parse : string -> string -> value + string;
  Worker_check : list event -> value -> WorkerOptions -> option value
}.

(** ** Completions: an expression or statement ends normally or throws *)

Inductive Completion (A : Type) : Type :=
| Normal (a : A)
| Throw (e : value).

Arguments Throw {A} e.

(** ** Process state *)

Section Process.

(** Everything else in the process (the global object, the bindings of
    other modules, the document): this module has no name for any of it. *)
Variable Rest : Type.

Record State : Type := mkState {
  _worker : value;          (* let _worker; *)
  threads : list Thread;    (* the platform's threads, by Worker identity *)
  trace : list event;
  rest : Rest
}.

Definition set_worker (v : value) (s : State) : State :=
  {| _worker := v; threads := threads s; trace := trace s; rest := rest s |}.

Definition add_thread (t : Thread) (s : State) : State :=
  {| _worker := _worker s; threads := threads s ++ [t];
     trace := trace s; rest := rest s |}.

Definition log (e : event) (s : State) : State :=
  {| _worker := _worker s; threads := threads s;
     trace := trace s ++ [e]; rest := rest s |}.

(** Code runs on the state and may throw; what it did before throwing
    stays done. *)
Definition M (A : Type) : Type := State -> Completion A * State.

Definition ret {A} (a : A) : M A := fun s => (Normal a, s).

Definition bind {A B} (c : M A) (k : A -> M B) : M B :=
  fun s =>
    match c s with
    | (Normal a, s1) => k a s1
    | (Throw e, s1) => (Throw e, s1)
    end.

End Process.

Arguments ret {Rest A} a _.
Arguments bind {Rest A B} c k _.

Declare Scope js_scope.
Delimit Scope js_scope with js.
Notation "x <- c1 ;; c2" := (bind c1 (fun x => c2))
(at level 100, c1 at next level, right associativity) : js_scope.
Notation "c1 ;; c2" := (bind c1 (fun _ => c2))
(at level 100, right associativity) : js_scope.
Open Scope js_scope.

(** ** Calls *)

(** What a caller brings to a call: where the calling code lives, the
    [this] value and the argument list.  Only the last two are handed to
    the callee. *)
Record CallSite : Type := mkCallSite {
  caller_url : string;
  this_value : value;
  arguments : list value
}.

(** ** Reading the history *)

Section History.

Variable Rest : Type.

(** What a step from [s] to [s'] added to the history. *)
Definition new_events (s s' : State Rest) : list event :=
  skipn (length (trace s)) (trace s').

(** What a step from [s] to [s'] added to the thread table. *)
Definition new_threads (s s' : State Rest) : list Thread :=
  skipn (length (threads s)) (threads s').

(** Two states that differ at most in what [_worker] holds. *)
Definition same_but_worker (s1 s2 : State Rest) : Prop :=
  threads s1 = threads s2 /\ trace s1 = trace s2 /\ rest s1 = rest s2.

End History.

(** The arguments of the [new URL] calls in a history. *)
Fixpoint url_requests (evs : list event) : list (string * string) :=
  match evs with
  | [] => []
  | ENewURL url base :: tl => (url, base) :: url_requests tl
  | _ :: tl => url_requests tl
  end.

(** The arguments of the [new Worker] calls in a history. *)
Fixpoint worker_requests (evs : list event) : list (value * WorkerOptions) :=
  match evs with
  | [] => []
  | ENewWorker script opts :: tl => (script, opts) :: worker_requests tl
  | _ :: tl => worker_requests tl
  end.

(** The values assigned to [_worker] in a history. *)
Fixpoint assignments (evs : list event) : list value :=
  match evs with
  | [] => []
  | EAssign_worker v :: tl => v :: assignments tl
  | _ :: tl => assignments tl
  end.

(** ** The module *)

Section ModuleWorkerStart.

Variable P : Platform.
Variable Rest : Type.

(** [import.meta.url]: the location the loader gave this module. *)
Variable import_meta_url : string.

(** [new URL(url, base)] *)
Definition new_URL (url base : string) : M Rest value :=
  fun s =>
    let s1 := log (ENewURL url base) s in
    match URL_parse P url base with
    | inl e => (Throw e, s1)
    | inr href => (Normal (VURL href), s1)
    end.

(** [new Worker(script, opts)]: when the platform accepts, a new thread
    is appended to the thread table and the new Worker object is the one
    of that thread. *)
Definition new_Worker (script : value) (opts : WorkerOptions) : M Rest value :=
  fun s =>
    let s1 := log (ENewWorker script opts) s in
    match Worker_check P (trace s) script opts with
    | Some e => (Throw e, s1)
    | None =>
        (Normal (VWorker (length (threads s))),
         add_thread (mkThread script opts) s1)
    end.

(** [_worker = v] *)
Definition assign_worker (v : value) : M Rest unit :=
  fun s => (Normal tt, log (EAssign_worker v) (set_worker v s)).

(** [export function startWorker()] *)
Definition startWorker : M Rest value :=
  url <- new_URL "./web_worker_module.js" import_meta_url ;;
  worker <- new_Worker url {| type := "module"; name := "wasm_thread" |} ;;
  assign_worker worker ;;
  ret worker.

(** The function as its callers see it.  It declares no parameter and
    its body mentions neither [this] nor [arguments]. *)
Definition callable : Type := value -> list value -> M Rest value.

Definition startWorker_function : callable :=
  fun _this _arguments => startWorker.

Definition call (f : callable) (c : CallSite) : M Rest value :=
  f (this_value c) (arguments c).

(** The bindings marked [export]; [_worker] is not among them. *)
Definition exports : list (string * callable) :=
  [("startWorker", startWorker_function)].

Definition get_export (name : string) : option callable :=
  match find (fun b => String.eqb (fst b) name) exports with
  | Some b => Some (snd b)
  | None => None
  end.

(** Calling a name the module does not export calls [undefined]. *)
Definition call_export (name : string) (c : CallSite) : M Rest value :=
  match get_export name with
  | Some f => call f c
  | None => fun s => (Throw (VError "TypeError" "not a function"), s)
  end.

(** The state right after the module body has run: [let _worker;] leaves
    the binding [undefined].  Other code may have run before. *)
Definition module_init (th : list Thread) (tr : list event) (r : Rest)
  : State Rest :=
  {| _worker := VUndefined; threads := th; trace := tr; rest := r |}.

(** *** Code that imports the module

    Importing code reaches the module through its exports only.  It may
    also spawn workers of its own, and it continues on whatever a call
    gave back, a value or a thrown one. *)
Inductive client : Type :=
| Finish (r : Completion value)
| CallExport (name : string) (site : CallSite)
    (k : Completion value -> client)
| OwnWorker (script : value) (opts : WorkerOptions)
    (k : Completion value -> client).

Fixpoint run_client (c : client) : M Rest value :=
  match c with
  | Finish r => fun s => (r, s)
  | CallExport name site k =>
      fun s => let (r, s1) := call_export name site s in run_client (k r) s1
  | OwnWorker script opts k =>
      fun s => let (r, s1) := new_Worker script opts s in run_client (k r) s1
  end.

(** The states the process can be in once the module is loaded: importing
    code calls exports and spawns workers of its own. *)
Inductive reachable : State Rest -> Prop :=
| reach_init th tr r : reachable (module_init th tr r)
| reach_call s name site :
    reachable s -> reachable (snd (call_export name site s))
| reach_own s script opts :
    reachable s -> reachable (snd (new_Worker script opts s)).

(** The two states of the remembered handle. *)
Inductive phase : Type :=
| NoWorkerStartedYet
| OneWorkerRemembered (handle : nat).

Definition phase_of (s : State Rest) : option phase :=
  match _worker s with
  | VUndefined => Some NoWorkerStartedYet
  | VWorker h => if Nat.ltb h (length (threads s))
                 then Some (OneWorkerRemembered h) else None
  | _ => None
  end.

End ModuleWorkerStart.

(** ** Sample platforms, for the examples *)

Fixpoint has_slash (s : string) : bool :=
  match s with
  | EmptyString => false
  | String c r => Ascii.eqb c "/"%char || has_slash r
  end.

(** Everything up to the last slash, slash included. *)
Fixpoint dirname (s : string) : string :=
  match s with
  | EmptyString => EmptyString
  | String c r =>
      if has_slash r then String c (dirname r)
      else if Ascii.eqb c "/"%char then String c EmptyString
      else EmptyString
  end.

(** A URL parser that knows [./file] against a base with a directory. *)
Definition sample_URL_parse (url base : string) : value + string :=
  match url with
  | String "."%char (String "/"%char file) =>
      if has_slash base then inr (dirname base ++ file)%string
      else inl (VError "TypeError" "Invalid base URL")
  | _ => inl (VError "TypeError" "Invalid URL")
  end.

(** A host that spawns every worker it is asked for. *)
Definition permissive_platform : Platform :=
  {| URL_parse := sample_URL_parse;
     Worker_check := fun _ _ _ => None |}.

(** A host whose policy forbids workers. *)
Definition refusing_platform : Platform :=
  {| URL_parse := sample_URL_parse;
     Worker_check := fun _ _ _ =>
       Some (VError "SecurityError" "worker creation is not allowed") |}.

(** A host that is not ready yet at the first request it sees: it refuses
    a worker while the history holds at most one event. *)
Definition warming_platform : Platform :=
  {| URL_parse := sample_URL_parse;
     Worker_check := fun history _ _ =>
       match history with
       | [] | [_] => Some (VError "SecurityError" "not ready")
       | _ => None
       end |}.

Definition lib_url : string := "https://cdn.example/pkg/module_worker_start.js".
Definition app_url : string := "https://app.example/main.js".

Definition from_app : CallSite :=
  {| caller_url := app_url; this_value := VUndefined; arguments := [] |}.

Definition fresh_process : State unit := module_init [] [] tt.

(** The sample process after one and after two calls on the permissive
    host, and after one call on the refusing host. *)
Definition after_one : State unit :=
  snd (startWorker permissive_platform lib_url fresh_process).

Definition after_two : State unit :=
  snd (startWorker permissive_platform lib_url after_one).

Definition blocked_process : State unit :=
  snd (startWorker refusing_platform lib_url fresh_process).

(** A module location against which nothing relative resolves. *)
Definition srcdoc_url : string := "about:srcdoc".

(** Importing code that starts the worker, spawns a worker of its own and
    starts the worker again. *)
Definition sample_client : client :=
  CallExport "startWorker" from_app (fun _ =>
  OwnWorker (VString "other.js") {| type := "classic"; name := "other" |} (fun _ =>
  CallExport "startWorker" from_app (fun r => Finish r))).

(** ** What a run leaves behind *)

Section Runs.

Variable Rest : Type.

(** [s'] comes after [s]: the history and the thread table of [s] were
    only added to; the values assigned to [_worker] in between are Worker
    objects of threads added in between, in the order of their spawning;
    and [_worker] holds the last value assigned, or what it held in [s]
    when nothing was assigned. *)
Definition extends (s s' : State Rest) : Prop :=
  exists evs more ids,
    trace s' = trace s ++ evs /\
    threads s' = threads s ++ more /\
    assignments evs = map VWorker ids /\
    StronglySorted lt ids /\
    Forall (fun id => length (threads s) <= id < length (threads s')) ids /\
    _worker s' = last (assignments evs) (_worker s).

End Runs.

(** ** What importing code gets back *)

Section Returns.

Variable P : Platform.
Variable Rest : Type.
Variable import_meta_url : string.

(** The values that the calls of exports made by [c], run from [s],
    returned to it, in the order of the calls; a call that threw returned
    nothing. *)
Fixpoint returned_values (c : client) : State Rest -> list value :=
  match c with
  | Finish _ => fun _ => []
  | CallExport name site k =>
      fun s =>
        let (r, s1) := call_export P import_meta_url name site s in
        match r with
        | Normal v => v :: returned_values (k r) s1
        | Throw _ => returned_values (k r) s1
        end
  | OwnWorker script opts k =>
      fun s =>
        let (r, s1) := new_Worker P script opts s in
        returned_values (k r) s1
  end.

End Returns.

(** * Properties *)

Section Properties.

Variable P : Platform.
Variable Rest : Type.
Variable import_meta_url : string.

(** ** One call, spelled out *)

Lemma new_events_app (s s' : State Rest) (evs : list event) :
  trace s' = trace s ++ evs -> new_events s s' = evs.
Proof.
  intros E. unfold new_events. rewrite E.
  rewrite skipn_app, skipn_all, Nat.sub_diag. reflexivity.
Qed.

Lemma new_threads_app (s s' : State Rest) (ts : list Thread) :
  threads s' = threads s ++ ts -> new_threads s s' = ts.
Proof.
  intros E. unfold new_threads. rewrite E.
  rewrite skipn_app, skipn_all, Nat.sub_diag. reflexivity.
Qed.

(** The three ways a call can go. *)
Lemma startWorker_unfold (s : State Rest) :
  startWorker P import_meta_url s =
  let s1 := log (ENewURL "./web_worker_module.js" import_meta_url) s in
  match URL_parse P "./web_worker_module.js" import_meta_url with
  | inl e => (Throw e, s1)
  | inr href =>
      let opts := {| type := "module"; name := "wasm_thread" |} in
      let s2 := log (ENewWorker (VURL href) opts) s1 in
      match Worker_check P (trace s1) (VURL href) opts with
      | Some e => (Throw e, s2)
      | None =>
          let worker := VWorker (length (threads s)) in
          (Normal worker,
           log (EAssign_worker worker)
             (set_worker worker (add_thread (mkThread (VURL href) opts) s2)))
      end
  end.
Proof.
  unfold startWorker, bind, new_URL, new_Worker, assign_worker, ret; simpl.
  destruct (URL_parse P _ _) as [e | href]; [reflexivity |].
  simpl. destruct (Worker_check P _ _ _); reflexivity.
Qed.

(** A call that returns went through the third way. *)
Lemma startWorker_Normal_inv (s s' : State Rest) (v : value) :
  startWorker P import_meta_url s = (Normal v, s') ->
  exists href,
    URL_parse P "./web_worker_module.js" import_meta_url = inr href /\
    v = VWorker (length (threads s)) /\
    s' = {| _worker := v;
            threads := threads s ++
              [mkThread (VURL href) {| type := "module"; name := "wasm_thread" |}];
            trace := trace s ++
              [ENewURL "./web_worker_module.js" import_meta_url;
               ENewWorker (VURL href) {| type := "module"; name := "wasm_thread" |};
               EAssign_worker v];
            rest := rest s |}.
Proof.
  rewrite startWorker_unfold; cbv zeta.
  destruct (URL_parse P _ _) as [e | href]; [discriminate |].
  destruct (Worker_check P _ _ _); [discriminate |].
  intros E; injection E as <- <-. exists href.
  repeat split. unfold log, set_worker, add_thread; simpl.
  rewrite <- !app_assoc. reflexivity.
Qed.

(** A call that throws leaves the binding, the threads and the rest. *)
Lemma startWorker_Throw_inv (s s' : State Rest) (e : value) :
  startWorker P import_meta_url s = (Throw e, s') ->
  _worker s' = _worker s /\ threads s' = threads s /\ rest s' = rest s /\
  assignments (new_events s s') = [].
Proof.
  rewrite startWorker_unfold; cbv zeta.
  destruct (URL_parse P _ _) as [e' | href].
  - intros E; injection E as <- <-. repeat split.
    erewrite new_events_app by reflexivity. reflexivity.
  - destruct (Worker_check P _ _ _); [| discriminate].
    intros E; injection E as <- <-. repeat split.
    erewrite new_events_app
      by (unfold log; simpl; rewrite <- app_assoc; reflexivity).
    reflexivity.
Qed.

Lemma VWorker_neq (a b : nat) : a <> b -> VWorker a <> VWorker b.
Proof. intros N E; injection E; exact N. Qed.

Lemma strict_equal_false (a b : value) : a <> b -> strict_equal a b = false.
Proof. unfold strict_equal; destruct (value_eq_dec a b); tauto. Qed.

Lemma strict_equal_refl (a : value) : strict_equal a a = true.
Proof. unfold strict_equal; destruct (value_eq_dec a a); tauto. Qed.

(** ** Success *)

(** C1. Whenever [startWorker] returns, the value returned is the object
    that the [Worker] constructor returned in this call, called on the URL
    that [new URL] returned in this call with the literal options: a
    Worker object, hence neither [null] nor [undefined], the one of the
    thread the platform has just added to its table.  [_worker] in the
    state the call returns with is that very object: the state is the one
    the constructor left, with the assignment made on it, and the
    assignment is the last thing the call did, after the two constructor
    calls. *)
Theorem startWorker_success_stores_handle
  (s s' : State Rest) (v : value) :
  startWorker P import_meta_url s = (Normal v, s') ->
  is_worker v = true /\ is_nullish v = false /\
  _worker s' = v /\ strict_equal (_worker s') v = true /\
  (exists script opts,
    new_events s s' =
      [ENewURL "./web_worker_module.js" import_meta_url;
       ENewWorker script opts;
       EAssign_worker v]) /\
  exists url s1 s2,
    new_URL P "./web_worker_module.js" import_meta_url s = (Normal url, s1) /\
    new_Worker P url {| type := "module"; name := "wasm_thread" |} s1
      = (Normal v, s2) /\
    s' = log (EAssign_worker v) (set_worker v s2) /\
    new_events s s' =
      [ENewURL "./web_worker_module.js" import_meta_url;
       ENewWorker url {| type := "module"; name := "wasm_thread" |};
       EAssign_worker v] /\
    v = VWorker (length (threads s)) /\
    nth_error (threads s) (length (threads s)) = None /\
    nth_error (threads s') (length (threads s))
      = Some {| scriptURL := url;
                options := {| type := "module"; name := "wasm_thread" |} |}.
Proof.
  intros H. pose proof H as H'.
  apply startWorker_Normal_inv in H as (href & U & Hv & Hs).
  assert (Ev : new_events s s' =
      [ENewURL "./web_worker_module.js" import_meta_url;
       ENewWorker (VURL href) {| type := "module"; name := "wasm_thread" |};
       EAssign_worker v])
    by (apply new_events_app; rewrite Hs; reflexivity).
  split; [rewrite Hv; reflexivity |].
  split; [rewrite Hv; reflexivity |].
  split; [rewrite Hs; reflexivity |].
  split; [rewrite Hs; simpl; apply strict_equal_refl |].
  split; [eexists _, _; exact Ev |].
  unfold startWorker, bind in H'.
  destruct (new_URL P "./web_worker_module.js" import_meta_url s)
    as [[url | e] s1] eqn:HU; [| discriminate].
  destruct (new_Worker P url {| type := "module"; name := "wasm_thread" |} s1)
    as [[w | e] s2] eqn:HW; [| discriminate].
  unfold assign_worker, ret in H'. injection H' as -> <-.
  assert (Hurl : url = VURL href).
  { unfold new_URL in HU. rewrite U in HU. injection HU as <- _. reflexivity. }
  subst url. exists (VURL href), s1, s2.
  split; [first [exact HU | reflexivity] |].
  split; [first [exact HW | reflexivity] |].
  split; [reflexivity |].
  split; [exact Ev |].
  split; [exact Hv |].
  split; [apply nth_error_None; lia |].
  rewrite Hs; simpl. rewrite nth_error_app2 by lia.
  rewrite Nat.sub_diag. reflexivity.
Qed.

(** ** Failure of the spawn *)

(** C2. When the [Worker] constructor throws [e] in a call of
    [startWorker], the call throws [e] itself, in the state the constructor
    left: [_worker], the thread table and the rest of the process are as
    before the call, the constructor was called once, and nothing was
    assigned. *)
Theorem startWorker_propagates_spawn_failure
  (s s1 s2 : State Rest) (url e : value) :
  new_URL P "./web_worker_module.js" import_meta_url s = (Normal url, s1) ->
  new_Worker P url {| type := "module"; name := "wasm_thread" |} s1
    = (Throw e, s2) ->
  startWorker P import_meta_url s = (Throw e, s2) /\
  _worker s2 = _worker s /\ threads s2 = threads s /\ rest s2 = rest s /\
  worker_requests (new_events s s2)
    = [(url, {| type := "module"; name := "wasm_thread" |})] /\
  assignments (new_events s s2) = [].
Proof.
  intros HU HW.
  assert (E : startWorker P import_meta_url s = (Throw e, s2)).
  { unfold startWorker, bind. rewrite HU, HW. reflexivity. }
  split; [exact E |].
  destruct (startWorker_Throw_inv _ E) as (A & B & C & D).
  repeat split; try assumption.
  unfold new_URL in HU. unfold new_Worker in HW.
  destruct (URL_parse P _ _); [discriminate |].
  injection HU as <- <-.
  destruct (Worker_check P _ _ _); [| discriminate].
  injection HW as _ <-.
  erewrite new_events_app
    by (unfold log; simpl; rewrite <- app_assoc; reflexivity).
  reflexivity.
Qed.

(** ** Two calls in a row *)


(** C6. A call that returns has appended exactly one thread to the
    platform's thread table, after exactly one call of the [Worker]
    constructor, and the object returned is the one of that thread: it
    named no thread before the call.  When the next call returns as well,
    its object is a different one, [_worker] then holds the second object,
    and the table has grown by two. *)
Theorem startWorker_spawns_one_fresh_thread
  (s0 s1 : State Rest) (h1 : value) :
  startWorker P import_meta_url s0 = (Normal h1, s1) ->
  (exists id t,
      h1 = VWorker id /\
      new_threads s0 s1 = [t] /\
      nth_error (threads s0) id = None /\
      nth_error (threads s1) id = Some t /\
      length (worker_requests (new_events s0 s1)) = 1) /\
  forall (s2 : State Rest) (h2 : value),
    startWorker P import_meta_url s1 = (Normal h2, s2) ->
    h1 <> h2 /\ strict_equal h1 h2 = false /\ _worker s2 = h2 /\
    length (new_threads s0 s2) = 2.
Proof.
  intros H1.
  apply startWorker_Normal_inv in H1 as (href1 & _ & Hv1 & Hs1).
  split.
  - exists (length (threads s0)), (mkThread (VURL href1) (mkOptions "module" "wasm_thread")).
    split; [exact Hv1 |].
    split; [apply new_threads_app; rewrite Hs1; reflexivity |].
    split; [apply nth_error_None; lia |].
    split.
    + rewrite Hs1; simpl. rewrite nth_error_app2 by lia.
      rewrite Nat.sub_diag. reflexivity.
    + erewrite new_events_app by (rewrite Hs1; reflexivity). reflexivity.
  - intros s2 h2 H2.
    apply startWorker_Normal_inv in H2 as (href2 & _ & Hv2 & Hs2).
    assert (N : h1 <> h2).
    { subst h1 h2. apply VWorker_neq. rewrite Hs1; simpl.
      rewrite length_app; simpl. lia. }
    repeat split.
    + exact N.
    + apply strict_equal_false; exact N.
    + rewrite Hs2; reflexivity.
    + erewrite new_threads_app.
      2:{ rewrite Hs2; simpl. rewrite Hs1; simpl.
          rewrite <- app_assoc. reflexivity. }
      reflexivity.
Qed.

(** ** What the platform is asked *)

(** The events of one call, whichever way it goes. *)
Lemma startWorker_events (s : State Rest) :
  new_events s (snd (startWorker P import_meta_url s)) =
  ENewURL "./web_worker_module.js" import_meta_url ::
  match URL_parse P "./web_worker_module.js" import_meta_url with
  | inl _ => []
  | inr href =>
      ENewWorker (VURL href) {| type := "module"; name := "wasm_thread" |} ::
      match fst (startWorker P import_meta_url s) with
      | Normal v => [EAssign_worker v]
      | Throw _ => []
      end
  end.
Proof.
  rewrite startWorker_unfold; cbv zeta.
  destruct (URL_parse P _ _) as [e | href]; simpl.
  - apply new_events_app. reflexivity.
  - destruct (Worker_check P _ _ _); simpl; apply new_events_app; simpl;
      rewrite <- ?app_assoc; reflexivity.
Qed.

(** C4. Whoever calls [startWorker], from wherever, with whatever [this]
    and arguments: the call makes one [new URL] request, of
    [./web_worker_module.js] against the module's own [import.meta.url],
    and what it hands to [Worker], when it gets that far, is the URL this
    request produced.  The caller's location has no part in it. *)
Theorem startWorker_resolves_against_own_module
  (site : CallSite) (s : State Rest) :
  let s' := snd (call (startWorker_function P import_meta_url) site s) in
  url_requests (new_events s s')
    = [("./web_worker_module.js", import_meta_url)] /\
  map fst (worker_requests (new_events s s')) =
    match URL_parse P "./web_worker_module.js" import_meta_url with
    | inr href => [VURL href]
    | inl _ => []
    end.
Proof.
  unfold call, startWorker_function; cbv zeta.
  rewrite startWorker_events.
  destruct (URL_parse P _ _) as [e | href]; simpl; [split; reflexivity |].
  destruct (fst (startWorker P import_meta_url s)); split; reflexivity.
Qed.

(** C5. Every call of [startWorker] that gets to the [Worker] constructor
    passes it the options [{ type: 'module', name: 'wasm_thread' }], and a
    thread it spawns carries these options.  The right-hand sides mention
    neither the caller nor the state: the options are the same in every
    call. *)
Theorem startWorker_options_constant
  (site : CallSite) (s : State Rest) :
  let s' := snd (call (startWorker_function P import_meta_url) site s) in
  map snd (worker_requests (new_events s s')) =
    match URL_parse P "./web_worker_module.js" import_meta_url with
    | inr _ => [ {| type := "module"; name := "wasm_thread" |} ]
    | inl _ => []
    end /\
  map options (new_threads s s') =
    match fst (call (startWorker_function P import_meta_url) site s) with
    | Normal _ => [ {| type := "module"; name := "wasm_thread" |} ]
    | Throw _ => []
    end.
Proof.
  unfold call, startWorker_function; cbv zeta. split.
  - rewrite startWorker_events.
    destruct (URL_parse P _ _) as [e | href]; simpl; [reflexivity |].
    destruct (fst (startWorker P import_meta_url s)); reflexivity.
  - destruct (startWorker P import_meta_url s) as [[v | e] s'] eqn:E; simpl.
    + apply startWorker_Normal_inv in E as (href & _ & _ & Hs).
      erewrite new_threads_app by (rewrite Hs; reflexivity). reflexivity.
    + apply startWorker_Throw_inv in E as (_ & T & _).
      erewrite new_threads_app by (rewrite T, app_nil_r; reflexivity).
      reflexivity.
Qed.

(** ** Frame *)

(** C8. A call of [startWorker] leaves the rest of the process alone.  When
    it returns [v], the state differs from the one before in three places:
    [_worker] is [v], the thread table has the one thread the platform
    spawned, and the history has the two constructor calls and the
    assignment.  When it throws, [_worker] and the thread table are
    untouched as well. *)
Theorem startWorker_frame (site : CallSite) (s : State Rest) :
  let r := fst (call (startWorker_function P import_meta_url) site s) in
  let s' := snd (call (startWorker_function P import_meta_url) site s) in
  rest s' = rest s /\
  match r with
  | Normal v =>
      exists t,
        s' = {| _worker := v;
                threads := threads s ++ [t];
                trace := trace s ++
                  [ENewURL "./web_worker_module.js" import_meta_url;
                   ENewWorker (scriptURL t) (options t);
                   EAssign_worker v];
                rest := rest s |}
  | Throw _ =>
      _worker s' = _worker s /\ threads s' = threads s /\
      assignments (new_events s s') = []
  end.
Proof.
  unfold call, startWorker_function; cbv zeta.
  destruct (startWorker P import_meta_url s) as [[v | e] s'] eqn:E; simpl.
  - apply startWorker_Normal_inv in E as (href & _ & _ & Hs).
    split; [rewrite Hs; reflexivity |].
    eexists (mkThread _ _). exact Hs.
  - apply startWorker_Throw_inv in E as (A & B & C & D). auto.
Qed.

(** ** No input *)

(** C9. Two calls from the same state go the same way whatever their
    callers supply ([this], arguments, the place of the call).  What is
    requested from the platform is fixed in the text of the function.  How
    the call completes is the platform's doing alone: it throws what
    [new URL] threw; or else it throws what [new Worker], asked after that
    request with the URL obtained and the literal options, threw; or else
    it returns the Worker object of the thread that this [new Worker] has
    just added to the platform's table. *)
Theorem startWorker_takes_no_input
  (site site' : CallSite) (s : State Rest) :
  let f := startWorker_function P import_meta_url in
  call f site s = call f site' s /\
  url_requests (new_events s (snd (call f site s)))
    = [("./web_worker_module.js", import_meta_url)] /\
  map snd (worker_requests (new_events s (snd (call f site s)))) =
    match URL_parse P "./web_worker_module.js" import_meta_url with
    | inr _ => [ {| type := "module"; name := "wasm_thread" |} ]
    | inl _ => []
    end /\
  fst (call f site s) =
    match URL_parse P "./web_worker_module.js" import_meta_url with
    | inl e => Throw e
    | inr href =>
        match Worker_check P
                (trace s ++ [ENewURL "./web_worker_module.js" import_meta_url])
                (VURL href) {| type := "module"; name := "wasm_thread" |}
        with
        | Some e => Throw e
        | None => Normal (VWorker (length (threads s)))
        end
    end /\
  match fst (call f site s) with
  | Normal v =>
      is_worker v = true /\
      exists url s1 s2,
        new_URL P "./web_worker_module.js" import_meta_url s
          = (Normal url, s1) /\
        new_Worker P url {| type := "module"; name := "wasm_thread" |} s1
          = (Normal v, s2) /\
        nth_error (threads s) (length (threads s)) = None /\
        nth_error (threads (snd (call f site s))) (length (threads s))
          = Some {| scriptURL := url;
                    options := {| type := "module"; name := "wasm_thread" |} |}
  | Throw e =>
      (exists s1,
          new_URL P "./web_worker_module.js" import_meta_url s
            = (Throw e, s1)) \/
      (exists url s1 s2,
          new_URL P "./web_worker_module.js" import_meta_url s
            = (Normal url, s1) /\
          new_Worker P url {| type := "module"; name := "wasm_thread" |} s1
            = (Throw e, s2))
  end.
Proof.
  cbv zeta. unfold call, startWorker_function.
  split; [reflexivity |].
  rewrite startWorker_events.
  rewrite startWorker_unfold; cbv zeta.
  unfold new_URL, new_Worker.
  destruct (URL_parse P _ _) as [e | href] eqn:U; simpl.
  - repeat split. left. eexists; reflexivity.
  - destruct (Worker_check P _ _ _) as [e |] eqn:W; simpl.
    + repeat split. right. eexists _, _, _.
      split; [reflexivity |]. simpl. rewrite W. reflexivity.
    + repeat split.
      eexists _, _, _.
      split; [reflexivity |]. simpl. rewrite W.
      split; [reflexivity |].
      split; [apply nth_error_None; lia |].
      rewrite nth_error_app2 by lia. rewrite Nat.sub_diag. reflexivity.
Qed.

(** ** The states of [_worker] *)

Lemma call_export_unfold (name : string) (site : CallSite) (s : State Rest) :
  call_export P import_meta_url name site s =
  if String.eqb "startWorker" name
  then startWorker P import_meta_url s
  else (Throw (VError "TypeError" "not a function"), s).
Proof.
  unfold call_export, get_export, exports. cbn [find fst snd].
  destruct (String.eqb "startWorker" name); reflexivity.
Qed.

Lemma new_Worker_state (script : value) (opts : WorkerOptions)
  (s : State Rest) :
  _worker (snd (new_Worker P script opts s)) = _worker s /\
  rest (snd (new_Worker P script opts s)) = rest s /\
  exists more, threads (snd (new_Worker P script opts s)) = threads s ++ more.
Proof.
  unfold new_Worker; simpl.
  destruct (Worker_check P _ _ _); simpl; repeat split.
  - exists []. rewrite app_nil_r. reflexivity.
  - eexists. reflexivity.
Qed.

(** A remembered handle stays valid while threads are only added. *)
Lemma phase_of_grow (s s' : State Rest) (ph : phase) :
  _worker s' = _worker s ->
  (exists more, threads s' = threads s ++ more) ->
  phase_of s = Some ph -> phase_of s' = Some ph.
Proof.
  intros W [more T]. unfold phase_of. rewrite W, T.
  destruct (_worker s); try discriminate; [trivial |].
  destruct (Nat.ltb id (length (threads s))) eqn:L; [| discriminate].
  apply Nat.ltb_lt in L.
  replace (Nat.ltb id (length (threads s ++ more))) with true; [trivial |].
  symmetry. apply Nat.ltb_lt. rewrite length_app. lia.
Qed.

Lemma startWorker_phase (s : State Rest) :
  match fst (startWorker P import_meta_url s) with
  | Normal v =>
      exists h, v = VWorker h /\
        phase_of (snd (startWorker P import_meta_url s))
          = Some (OneWorkerRemembered h)
  | Throw _ => phase_of (snd (startWorker P import_meta_url s)) = phase_of s
  end.
Proof.
  destruct (startWorker P import_meta_url s) as [[v | e] s'] eqn:E; simpl.
  - apply startWorker_Normal_inv in E as (href & _ & Hv & Hs).
    exists (length (threads s)). split; [exact Hv |].
    unfold phase_of. rewrite Hs; simpl. rewrite Hv.
    replace (Nat.ltb _ _) with true; [reflexivity |].
    symmetry. apply Nat.ltb_lt. rewrite length_app; simpl. lia.
  - apply startWorker_Throw_inv in E as (A & B & _).
    unfold phase_of. rewrite A, B. reflexivity.
Qed.

(** Every reachable state is in one of the two phases. *)
Lemma reachable_phase (s : State Rest) :
  reachable P import_meta_url s -> exists ph, phase_of s = Some ph.
Proof.
  induction 1 as [th tr r | s name site _ [ph IH] | s script opts _ [ph IH]].
  - exists NoWorkerStartedYet. reflexivity.
  - rewrite call_export_unfold.
    destruct (String.eqb "startWorker" name); [| exists ph; exact IH].
    pose proof (startWorker_phase s) as Hp.
    destruct (fst (startWorker P import_meta_url s)).
    + destruct Hp as (h & _ & Hp). eexists; exact Hp.
    + exists ph. rewrite Hp. exact IH.
  - exists ph. destruct (new_Worker_state script opts s) as (W & _ & T).
    eapply phase_of_grow; eassumption.
Qed.

(** C7, as the code has it.  The module starts with no worker remembered.
    Every reachable state is in one of the two phases, and a remembered
    handle names a thread of the platform.  From a reachable state, a call
    of [startWorker] that returns enters the phase "one worker remembered"
    with the returned handle as payload, whatever the phase was; a call
    that throws leaves the phase as it was; the state after the call is
    reachable again, so calls can go on for ever.  Nothing else moves the
    phase: not a worker spawned by other code, not a call of a name the
    module does not export. *)
Theorem worker_state_machine (s : State Rest) (site : CallSite) :
  reachable P import_meta_url s ->
  let f := startWorker_function P import_meta_url in
  (forall th tr (r : Rest),
      phase_of (module_init th tr r) = Some NoWorkerStartedYet) /\
  (exists ph, phase_of s = Some ph) /\
  reachable P import_meta_url (snd (call f site s)) /\
  match fst (call f site s) with
  | Normal v =>
      exists h, v = VWorker h /\
        phase_of (snd (call f site s)) = Some (OneWorkerRemembered h)
  | Throw _ => phase_of (snd (call f site s)) = phase_of s
  end /\
  (forall script opts,
      phase_of (snd (new_Worker P script opts s)) = phase_of s) /\
  (forall name, name <> "startWorker" ->
      snd (call_export P import_meta_url name site s) = s).
Proof.
  intros R f. split; [reflexivity |].
  destruct (reachable_phase R) as [ph Hph].
  split; [exists ph; exact Hph |].
  split; [exact (reach_call "startWorker" site R) |].
  split; [exact (startWorker_phase s) |].
  split.
  - intros script opts.
    destruct (new_Worker_state script opts s) as (W & _ & T).
    rewrite Hph. eapply phase_of_grow; eassumption.
  - intros name N. rewrite call_export_unfold.
    destruct (String.eqb "startWorker" name) eqn:E; [| reflexivity].
    apply String.eqb_eq in E. congruence.
Qed.

(** ** Privacy of [_worker] *)

Lemma State_eq (s1 s2 : State Rest) :
  _worker s1 = _worker s2 -> same_but_worker s1 s2 -> s1 = s2.
Proof.
  destruct s1, s2; unfold same_but_worker; simpl.
  intros -> (-> & -> & ->). reflexivity.
Qed.

(** One call of [startWorker] from two states that differ in [_worker]
    only: same completion, and afterwards the states are equal, or each
    kept its own [_worker]. *)
Lemma startWorker_low (s1 s2 : State Rest) :
  same_but_worker s1 s2 ->
  fst (startWorker P import_meta_url s1) = fst (startWorker P import_meta_url s2) /\
  same_but_worker (snd (startWorker P import_meta_url s1))
                  (snd (startWorker P import_meta_url s2)) /\
  (snd (startWorker P import_meta_url s1) = snd (startWorker P import_meta_url s2) \/
   (_worker (snd (startWorker P import_meta_url s1)) = _worker s1 /\
    _worker (snd (startWorker P import_meta_url s2)) = _worker s2)).
Proof.
  destruct s1 as [w1 th1 tr1 r1], s2 as [w2 th2 tr2 r2].
  unfold same_but_worker; simpl. intros (-> & -> & ->).
  rewrite !startWorker_unfold; cbv zeta; simpl.
  destruct (URL_parse P _ _) as [e | href]; simpl.
  - repeat split. right; split; reflexivity.
  - destruct (Worker_check P _ _ _); simpl.
    + repeat split. right; split; reflexivity.
    + repeat split. left; reflexivity.
Qed.

Lemma call_export_low (name : string) (site : CallSite) (s1 s2 : State Rest) :
  same_but_worker s1 s2 ->
  fst (call_export P import_meta_url name site s1)
    = fst (call_export P import_meta_url name site s2) /\
  same_but_worker (snd (call_export P import_meta_url name site s1))
                  (snd (call_export P import_meta_url name site s2)) /\
  (snd (call_export P import_meta_url name site s1)
     = snd (call_export P import_meta_url name site s2) \/
   (_worker (snd (call_export P import_meta_url name site s1)) = _worker s1 /\
    _worker (snd (call_export P import_meta_url name site s2)) = _worker s2)).
Proof.
  intros L. rewrite !call_export_unfold.
  destruct (String.eqb "startWorker" name); [apply startWorker_low; exact L |].
  simpl. repeat split; try apply L. right; split; reflexivity.
Qed.

Lemma new_Worker_low (script : value) (opts : WorkerOptions)
  (s1 s2 : State Rest) :
  same_but_worker s1 s2 ->
  fst (new_Worker P script opts s1) = fst (new_Worker P script opts s2) /\
  same_but_worker (snd (new_Worker P script opts s1))
                  (snd (new_Worker P script opts s2)) /\
  _worker (snd (new_Worker P script opts s1)) = _worker s1 /\
  _worker (snd (new_Worker P script opts s2)) = _worker s2.
Proof.
  destruct s1 as [w1 th1 tr1 r1], s2 as [w2 th2 tr2 r2].
  unfold same_but_worker; simpl. intros (-> & -> & ->).
  unfold new_Worker; simpl.
  destruct (Worker_check P _ _ _); simpl; repeat split.
Qed.

(** Importing code sees nothing of [_worker]. *)
Lemma run_client_low (c : client) :
  forall s1 s2 : State Rest,
    same_but_worker s1 s2 ->
    fst (run_client P import_meta_url c s1)
      = fst (run_client P import_meta_url c s2) /\
    same_but_worker (snd (run_client P import_meta_url c s1))
                    (snd (run_client P import_meta_url c s2)) /\
    (snd (run_client P import_meta_url c s1)
       = snd (run_client P import_meta_url c s2) \/
     (_worker (snd (run_client P import_meta_url c s1)) = _worker s1 /\
      _worker (snd (run_client P import_meta_url c s2)) = _worker s2)).
Proof.
  induction c as [r | name site k IH | script opts k IH]; intros s1 s2 L.
  - simpl. repeat split; try apply L. right; split; reflexivity.
  - simpl.
    destruct (call_export_low name site L) as (Er & L' & D).
    destruct (call_export P import_meta_url name site s1) as [r1 s1'].
    destruct (call_export P import_meta_url name site s2) as [r2 s2'].
    simpl in Er, L', D. subst r2.
    destruct (IH r1 _ _ L') as (Ef & Lf & Df).
    split; [exact Ef |]. split; [exact Lf |].
    destruct Df as [Df | [D1 D2]]; [left; exact Df |].
    destruct D as [D | [D3 D4]].
    + left. apply State_eq; [| exact Lf]. rewrite D1, D2, D. reflexivity.
    + right. split; congruence.
  - simpl.
    destruct (new_Worker_low script opts L) as (Er & L' & D3 & D4).
    destruct (new_Worker P script opts s1) as [r1 s1'].
    destruct (new_Worker P script opts s2) as [r2 s2'].
    simpl in Er, L', D3, D4. subst r2.
    destruct (IH r1 _ _ L') as (Ef & Lf & Df).
    split; [exact Ef |]. split; [exact Lf |].
    destruct Df as [Df | [D1 D2]]; [left; exact Df |].
    right. split; congruence.
Qed.

(** A run of importing code adds threads and removes none; [_worker] is as
    before, or holds a Worker object spawned during the run. *)
Lemma run_client_grows (c : client) :
  forall s : State Rest,
    (exists more,
        threads (snd (run_client P import_meta_url c s)) = threads s ++ more) /\
    (_worker (snd (run_client P import_meta_url c s)) = _worker s \/
     exists id,
       _worker (snd (run_client P import_meta_url c s)) = VWorker id /\
       length (threads s) <= id
         < length (threads (snd (run_client P import_meta_url c s)))).
Proof.
  induction c as [r | name site k IH | script opts k IH]; intros s.
  - simpl. split; [exists []; rewrite app_nil_r; reflexivity | left; reflexivity].
  - simpl. rewrite call_export_unfold.
    destruct (String.eqb "startWorker" name).
    + destruct (startWorker P import_meta_url s) as [[v | e] s'] eqn:E.
      * apply startWorker_Normal_inv in E as (href & _ & Hv & Hs).
        destruct (IH (Normal v) s') as ([more T] & W).
        assert (T' : threads s' = threads s ++
                  [mkThread (VURL href) (mkOptions "module" "wasm_thread")])
          by (rewrite Hs; reflexivity).
        assert (W' : _worker s' = VWorker (length (threads s)))
          by (rewrite Hs; simpl; exact Hv).
        split.
        -- eexists. rewrite T, T', <- app_assoc. reflexivity.
        -- right. destruct W as [W | (id & W & B)].
           ++ exists (length (threads s)). split; [congruence |].
              rewrite T, T', !length_app; simpl. lia.
           ++ exists id. split; [exact W |].
              rewrite T' in B. rewrite length_app in B; simpl in B. lia.
      * apply startWorker_Throw_inv in E as (A & B & _).
        destruct (IH (Throw e) s') as ([more T] & W).
        rewrite B in T, W. rewrite A in W.
        split; [exists more; exact T | exact W].
    + apply IH.
  - simpl.
    destruct (new_Worker_state script opts s) as (A & _ & [m B]).
    destruct (new_Worker P script opts s) as [r s']. simpl in A, B.
    destruct (IH r s') as ([more T] & W).
    split.
    + eexists. rewrite T, B, <- app_assoc. reflexivity.
    + destruct W as [W | (id & W & Bd)].
      * left. congruence.
      * right. exists id. split; [exact W |].
        rewrite B, length_app in Bd. lia.
Qed.

(** C10. The module exports [startWorker] and nothing else.  Code that
    imports it cannot read [_worker]: run the same importing code from two
    states that differ in [_worker] only, and it ends with the same
    completion, the same threads, history and rest.  It cannot replace
    [_worker] except through [startWorker]: at the end the two runs hold
    the same [_worker], or each still holds the one it started with, and a
    changed [_worker] is a Worker object spawned during the run.  It
    cannot remove a thread.  And [startWorker] itself does not read
    [_worker]: its completion is the same whatever [_worker] held. *)
Theorem stored_handle_is_private (c : client) (old : value) (s : State Rest) :
  let run := run_client P import_meta_url c in
  map fst (exports P Rest import_meta_url) = ["startWorker"] /\
  fst (run (set_worker old s)) = fst (run s) /\
  same_but_worker (snd (run (set_worker old s))) (snd (run s)) /\
  (snd (run (set_worker old s)) = snd (run s) \/
   (snd (run (set_worker old s)) = set_worker old (snd (run s)) /\
    _worker (snd (run s)) = _worker s)) /\
  (_worker (snd (run s)) = _worker s \/
   exists id, _worker (snd (run s)) = VWorker id /\
     length (threads s) <= id < length (threads (snd (run s)))) /\
  (exists more, threads (snd (run s)) = threads s ++ more) /\
  fst (startWorker P import_meta_url (set_worker old s))
    = fst (startWorker P import_meta_url s).
Proof.
  intros run. subst run.
  assert (L : same_but_worker (set_worker old s) s)
    by (unfold same_but_worker; simpl; auto).
  destruct (run_client_low c L) as (Er & Lf & D).
  destruct (run_client_grows c s) as (G & W).
  split; [reflexivity |].
  split; [exact Er |]. split; [exact Lf |].
  split.
  - destruct D as [D | [D1 D2]]; [left; exact D |].
    right. split; [| exact D2].
    apply State_eq.
    + rewrite D1. reflexivity.
    + unfold same_but_worker, set_worker; simpl. exact Lf.
  - split; [exact W |]. split; [exact G |].
    apply (startWorker_low L).
Qed.

End Properties.

(** * The sample process *)

Example sample_parse_lib :
  sample_URL_parse "./web_worker_module.js" lib_url
  = inr "https://cdn.example/pkg/web_worker_module.js".
Proof. reflexivity. Qed.

Example startWorker_once :
  call (startWorker_function permissive_platform lib_url) from_app
    fresh_process
  = (Normal (VWorker 0),
     {| _worker := VWorker 0;
        threads := [ {| scriptURL := VURL "https://cdn.example/pkg/web_worker_module.js";
                        options := {| type := "module"; name := "wasm_thread" |} |} ];
        trace := [ ENewURL "./web_worker_module.js" lib_url;
                   ENewWorker (VURL "https://cdn.example/pkg/web_worker_module.js")
                     {| type := "module"; name := "wasm_thread" |};
                   EAssign_worker (VWorker 0) ];
        rest := tt |}).
Proof. reflexivity. Qed.

(** The app lives elsewhere than the library; the worker script is looked
    for next to the library, not next to the app. *)
Example called_from_elsewhere :
  sample_URL_parse "./web_worker_module.js" (caller_url from_app)
    = inr "https://app.example/web_worker_module.js" /\
  map scriptURL (threads after_one)
    = [VURL "https://cdn.example/pkg/web_worker_module.js"].
Proof. split; reflexivity. Qed.

Example startWorker_blocked :
  startWorker refusing_platform lib_url fresh_process
  = (Throw (VError "SecurityError" "worker creation is not allowed"),
     {| _worker := VUndefined;
        threads := [];
        trace := [ ENewURL "./web_worker_module.js" lib_url;
                   ENewWorker (VURL "https://cdn.example/pkg/web_worker_module.js")
                     {| type := "module"; name := "wasm_thread" |} ];
        rest := tt |}).
Proof. reflexivity. Qed.

(** On the host that is not ready at first, the first call throws and the
    second returns the first thread. *)
Example startWorker_warming :
  fst (startWorker warming_platform lib_url fresh_process)
    = Throw (VError "SecurityError" "not ready") /\
  fst (startWorker warming_platform lib_url
         (snd (startWorker warming_platform lib_url fresh_process)))
    = Normal (VWorker 0).
Proof. split; reflexivity. Qed.

Lemma startWorker_success_stores_handle_witness :
  let url := VURL "https://cdn.example/pkg/web_worker_module.js" in
  let opts := {| type := "module"; name := "wasm_thread" |} in
  startWorker permissive_platform lib_url fresh_process
    = (Normal (VWorker 0), after_one) /\
  (is_worker (VWorker 0) = true /\ is_nullish (VWorker 0) = false /\
   _worker after_one = VWorker 0 /\
   strict_equal (_worker after_one) (VWorker 0) = true /\
   (exists script opts,
     new_events fresh_process after_one =
       [ENewURL "./web_worker_module.js" lib_url;
        ENewWorker script opts;
        EAssign_worker (VWorker 0)]) /\
   exists url s1 s2,
     new_URL permissive_platform "./web_worker_module.js" lib_url fresh_process
       = (Normal url, s1) /\
     new_Worker permissive_platform url opts s1 = (Normal (VWorker 0), s2) /\
     after_one = log (EAssign_worker (VWorker 0)) (set_worker (VWorker 0) s2) /\
     new_events fresh_process after_one =
       [ENewURL "./web_worker_module.js" lib_url;
        ENewWorker url opts;
        EAssign_worker (VWorker 0)] /\
     VWorker 0 = VWorker (length (threads fresh_process)) /\
     nth_error (threads fresh_process) (length (threads fresh_process)) = None /\
     nth_error (threads after_one) (length (threads fresh_process))
       = Some {| scriptURL := url; options := opts |}).
Proof.
  cbv zeta. split; [reflexivity |].
  apply (@startWorker_success_stores_handle
           permissive_platform unit lib_url fresh_process after_one).
  reflexivity.
Defined.

Lemma startWorker_propagates_spawn_failure_witness :
  let url := VURL "https://cdn.example/pkg/web_worker_module.js" in
  let e := VError "SecurityError" "worker creation is not allowed" in
  let s1 := log (ENewURL "./web_worker_module.js" lib_url) fresh_process in
  new_URL refusing_platform "./web_worker_module.js" lib_url fresh_process
    = (Normal url, s1) /\
  new_Worker refusing_platform url {| type := "module"; name := "wasm_thread" |} s1
    = (Throw e, blocked_process) /\
  (startWorker refusing_platform lib_url fresh_process
     = (Throw e, blocked_process) /\
   _worker blocked_process = _worker fresh_process /\
   threads blocked_process = threads fresh_process /\
   rest blocked_process = rest fresh_process /\
   worker_requests (new_events fresh_process blocked_process)
     = [(url, {| type := "module"; name := "wasm_thread" |})] /\
   assignments (new_events fresh_process blocked_process) = []).
Proof.
  cbv zeta.
  split; [reflexivity |]. split; [reflexivity |].
  apply (@startWorker_propagates_spawn_failure
           refusing_platform unit lib_url fresh_process
           (log (ENewURL "./web_worker_module.js" lib_url) fresh_process));
    reflexivity.
Defined.


Lemma startWorker_spawns_one_fresh_thread_witness :
  startWorker permissive_platform lib_url fresh_process
    = (Normal (VWorker 0), after_one) /\
  startWorker permissive_platform lib_url after_one
    = (Normal (VWorker 1), after_two) /\
  (exists id t,
      VWorker 0 = VWorker id /\
      new_threads fresh_process after_one = [t] /\
      nth_error (threads fresh_process) id = None /\
      nth_error (threads after_one) id = Some t /\
      length (worker_requests (new_events fresh_process after_one)) = 1) /\
  (VWorker 0 <> VWorker 1 /\ strict_equal (VWorker 0) (VWorker 1) = false /\
   _worker after_two = VWorker 1 /\
   length (new_threads fresh_process after_two) = 2).
Proof.
  split; [reflexivity |]. split; [reflexivity |].
  destruct (@startWorker_spawns_one_fresh_thread
              permissive_platform unit lib_url fresh_process after_one
              (VWorker 0) eq_refl) as [One Next].
  split; [exact One |].
  exact (Next after_two (VWorker 1) eq_refl).
Defined.

Lemma worker_state_machine_witness :
  reachable permissive_platform lib_url after_one /\
  (let f := startWorker_function permissive_platform lib_url in
   (forall th tr (r : unit),
       phase_of (module_init th tr r) = Some NoWorkerStartedYet) /\
   (exists ph, phase_of after_one = Some ph) /\
   reachable permissive_platform lib_url (snd (call f from_app after_one)) /\
   match fst (call f from_app after_one) with
   | Normal v =>
       exists h, v = VWorker h /\
         phase_of (snd (call f from_app after_one))
           = Some (OneWorkerRemembered h)
   | Throw _ => phase_of (snd (call f from_app after_one)) = phase_of after_one
   end /\
   (forall script opts,
       phase_of (snd (new_Worker permissive_platform script opts after_one))
         = phase_of after_one) /\
   (forall name, name <> "startWorker" ->
       snd (call_export permissive_platform lib_url name from_app after_one)
         = after_one)).
Proof.
  assert (R : reachable permissive_platform lib_url after_one)
    by exact (reach_call "startWorker" from_app
                (reach_init permissive_platform lib_url [] [] tt)).
  split; [exact R |].
  exact (@worker_state_machine permissive_platform unit lib_url
           after_one from_app R).
Defined.

(** C7, as the spec words it: every call of [startWorker] puts the process
    in the phase "one worker remembered".  On the host that forbids
    workers, the call from the app in the fresh process throws, and the
    process is still in the phase "no worker started yet". *)
Lemma every_call_remembers_a_worker_fails :
  reachable refusing_platform lib_url fresh_process /\
  fst (call (startWorker_function refusing_platform lib_url) from_app
         fresh_process)
    = Throw (VError "SecurityError" "worker creation is not allowed") /\
  phase_of (snd (call (startWorker_function refusing_platform lib_url)
                   from_app fresh_process))
    = Some NoWorkerStartedYet /\
  ~ (forall (P : Platform) (url : string) (site : CallSite) (s : State unit),
        reachable P url s ->
        exists h,
          phase_of (snd (call (startWorker_function P url) site s))
            = Some (OneWorkerRemembered h)).
Proof.
  assert (R : reachable refusing_platform lib_url fresh_process)
    by exact (reach_init refusing_platform lib_url [] [] tt).
  split; [exact R |]. split; [reflexivity |]. split; [reflexivity |].
  intros H. destruct (H refusing_platform lib_url from_app fresh_process R)
    as [h E].
  discriminate E.
Qed.

(** * Further properties of [startWorker] *)

Section Completions.

Variable P : Platform.
Variable Rest : Type.
Variable import_meta_url : string.

(** ** The other ways a call can go *)

(** X1. When [new URL] throws [e] in a call of [startWorker], the call
    throws [e] in the state the constructor left: the [Worker] constructor
    is not called, no thread is spawned, nothing is assigned, and
    [_worker] and the rest of the process are as before. *)
Theorem startWorker_propagates_URL_failure
  (s s1 : State Rest) (e : value) :
  new_URL P "./web_worker_module.js" import_meta_url s = (Throw e, s1) ->
  startWorker P import_meta_url s = (Throw e, s1) /\
  worker_requests (new_events s s1) = [] /\
  assignments (new_events s s1) = [] /\
  new_threads s s1 = [] /\
  _worker s1 = _worker s /\ rest s1 = rest s.
Proof.
  intros HU.
  assert (E : startWorker P import_meta_url s = (Throw e, s1))
    by (unfold startWorker, bind; rewrite HU; reflexivity).
  split; [exact E |].
  unfold new_URL in HU.
  destruct (URL_parse P _ _); [| discriminate].
  injection HU as _ <-.
  erewrite new_events_app by reflexivity.
  repeat split.
  apply new_threads_app. simpl. rewrite app_nil_r. reflexivity.
Qed.

(** X5. [startWorker] has no failure of its own: when both constructors
    complete normally, the call returns, its value is the object the
    [Worker] constructor gave, and the state is the one the constructor
    left with [_worker] set to that object. *)
Theorem startWorker_returns_when_constructors_do
  (s s1 s2 : State Rest) (url worker : value) :
  new_URL P "./web_worker_module.js" import_meta_url s = (Normal url, s1) ->
  new_Worker P url {| type := "module"; name := "wasm_thread" |} s1
    = (Normal worker, s2) ->
  startWorker P import_meta_url s
    = (Normal worker, log (EAssign_worker worker) (set_worker worker s2)) /\
  threads (snd (startWorker P import_meta_url s)) = threads s2 /\
  rest (snd (startWorker P import_meta_url s)) = rest s.
Proof.
  intros HU HW.
  assert (E : startWorker P import_meta_url s
              = (Normal worker, log (EAssign_worker worker) (set_worker worker s2))).
  { unfold startWorker, bind. rewrite HU, HW. reflexivity. }
  split; [exact E |]. rewrite E; simpl. split; [reflexivity |].
  unfold new_URL in HU. destruct (URL_parse P _ _); [discriminate |].
  injection HU as _ <-.
  unfold new_Worker in HW. destruct (Worker_check P _ _ _); [discriminate |].
  injection HW as _ <-. reflexivity.
Qed.

End Completions.

(** * Runs of importing code *)

Section RunProperties.

Variable P : Platform.
Variable Rest : Type.
Variable import_meta_url : string.

Lemma assignments_app (a b : list event) :
  assignments (a ++ b) = assignments a ++ assignments b.
Proof.
  induction a as [| [url base | script opts | v] a IH]; simpl;
    rewrite ?IH; reflexivity.
Qed.

Lemma last_app_default (A : Type) (a b : list A) (d : A) :
  last (a ++ b) d = last b (last a d).
Proof.
  induction b as [| x b IH] using rev_ind.
  - rewrite app_nil_r. reflexivity.
  - rewrite app_assoc, !last_last. reflexivity.
Qed.

Lemma StronglySorted_lt_app (a b : list nat) (m : nat) :
  StronglySorted lt a -> StronglySorted lt b ->
  Forall (fun x => x < m) a -> Forall (fun x => m <= x) b ->
  StronglySorted lt (a ++ b).
Proof.
  intros Sa Sb Fa Fb. induction Sa as [| x a Sa IH Hx]; simpl; [exact Sb |].
  inversion Fa as [| ? ? Fx Fa']; subst.
  constructor; [apply IH; exact Fa' |].
  apply Forall_app. split; [exact Hx |].
  eapply Forall_impl; [| exact Fb]. simpl. intros; lia.
Qed.

Lemma StronglySorted_lt_NoDup (l : list nat) :
  StronglySorted lt l -> NoDup (map VWorker l).
Proof.
  induction 1 as [| x l _ IH Hx]; simpl; constructor; [| exact IH].
  intros I. apply in_map_iff in I as (y & E & I).
  injection E as ->. rewrite Forall_forall in Hx.
  specialize (Hx _ I). lia.
Qed.

Lemma extends_refl (s : State Rest) : extends s s.
Proof.
  exists [], [], []. rewrite !app_nil_r. simpl.
  repeat split; constructor.
Qed.

Lemma extends_trans (s s1 s2 : State Rest) :
  extends s s1 -> extends s1 s2 -> extends s s2.
Proof.
  intros (e1 & m1 & i1 & T1 & H1 & A1 & S1 & F1 & W1)
         (e2 & m2 & i2 & T2 & H2 & A2 & S2 & F2 & W2).
  exists (e1 ++ e2), (m1 ++ m2), (i1 ++ i2).
  assert (L1 : length (threads s) <= length (threads s1))
    by (rewrite H1, length_app; lia).
  assert (L2 : length (threads s1) <= length (threads s2))
    by (rewrite H2, length_app; lia).
  split; [rewrite T2, T1, app_assoc; reflexivity |].
  split; [rewrite H2, H1, app_assoc; reflexivity |].
  split; [rewrite assignments_app, A1, A2, map_app; reflexivity |].
  split.
  { apply StronglySorted_lt_app with (m := length (threads s1)); trivial.
    - eapply Forall_impl; [| exact F1]. simpl. intros; lia.
    - eapply Forall_impl; [| exact F2]. simpl. intros; lia. }
  split.
  { apply Forall_app. split.
    - eapply Forall_impl; [| exact F1]. simpl. intros; lia.
    - eapply Forall_impl; [| exact F2]. simpl. intros; lia. }
  rewrite assignments_app, last_app_default, <- W1. exact W2.
Qed.

Lemma extends_startWorker (s : State Rest) :
  extends s (snd (startWorker P import_meta_url s)).
Proof.
  destruct (startWorker P import_meta_url s) as [[v | e] s'] eqn:E; simpl.
  - apply startWorker_Normal_inv in E as (href & _ & Hv & Hs).
    eexists _, _, [length (threads s)].
    rewrite Hs; simpl.
    split; [reflexivity |]. split; [reflexivity |].
    split; [rewrite Hv; reflexivity |].
    split; [repeat constructor |].
    split; [| reflexivity].
    constructor; [| constructor]. rewrite length_app; simpl. lia.
  - pose proof E as E'.
    apply startWorker_Throw_inv in E as (A & B & _ & D).
    rewrite startWorker_unfold in E'; cbv zeta in E'.
    assert (T : exists evs, trace s' = trace s ++ evs).
    { destruct (URL_parse P _ _).
      - injection E' as _ <-. eexists; reflexivity.
      - destruct (Worker_check P _ _ _); [| discriminate].
        injection E' as _ <-. simpl. rewrite <- app_assoc.
        eexists; reflexivity. }
    destruct T as [evs T].
    rewrite (@new_events_app _ _ _ _ T) in D.
    exists evs, [], []. rewrite D, app_nil_r. simpl.
    repeat split; trivial; constructor.
Qed.

Lemma extends_new_Worker (script : value) (opts : WorkerOptions)
  (s : State Rest) :
  extends s (snd (new_Worker P script opts s)).
Proof.
  unfold new_Worker; simpl.
  destruct (Worker_check P _ _ _); simpl.
  - exists [ENewWorker script opts], [], []. simpl. rewrite app_nil_r.
    repeat split; constructor.
  - exists [ENewWorker script opts], [mkThread script opts], []. simpl.
    repeat split; constructor.
Qed.

Lemma extends_call_export (name : string) (site : CallSite) (s : State Rest) :
  extends s (snd (call_export P import_meta_url name site s)).
Proof.
  rewrite call_export_unfold.
  destruct (String.eqb "startWorker" name);
    [apply extends_startWorker | apply extends_refl].
Qed.

Lemma extends_run_client (c : client) :
  forall s : State Rest, extends s (snd (run_client P import_meta_url c s)).
Proof.
  induction c as [r | name site k IH | script opts k IH]; intros s; simpl.
  - apply extends_refl.
  - pose proof (extends_call_export name site s) as E.
    destruct (call_export P import_meta_url name site s) as [r s1].
    eapply extends_trans; [exact E | apply IH].
  - pose proof (extends_new_Worker script opts s) as E.
    destruct (new_Worker P script opts s) as [r s1].
    eapply extends_trans; [exact E | apply IH].
Qed.

Lemma startWorker_assigns_what_it_returns (s : State Rest) :
  exists evs,
    trace (snd (startWorker P import_meta_url s)) = trace s ++ evs /\
    assignments evs =
      match fst (startWorker P import_meta_url s) with
      | Normal v => [v]
      | Throw _ => []
      end.
Proof.
  rewrite startWorker_unfold; cbv zeta.
  destruct (URL_parse P _ _) as [e | href]; simpl.
  - eexists; split; reflexivity.
  - destruct (Worker_check P _ _ _); simpl; rewrite <- ?app_assoc;
      eexists; split; reflexivity.
Qed.

(** The assignments of a run are the values its calls returned. *)
Lemma run_client_returned (c : client) :
  forall s : State Rest,
    exists evs,
      trace (snd (run_client P import_meta_url c s)) = trace s ++ evs /\
      assignments evs = returned_values P import_meta_url c s.
Proof.
  induction c as [r | name site k IH | script opts k IH]; intros s; simpl.
  - exists []. rewrite app_nil_r. split; reflexivity.
  - assert (St : exists e1,
               trace (snd (call_export P import_meta_url name site s))
                 = trace s ++ e1 /\
               assignments e1 =
                 match fst (call_export P import_meta_url name site s) with
                 | Normal v => [v]
                 | Throw _ => []
                 end).
    { rewrite call_export_unfold.
      destruct (String.eqb "startWorker" name);
        [apply startWorker_assigns_what_it_returns |].
      exists []. simpl. rewrite app_nil_r. split; reflexivity. }
    destruct (call_export P import_meta_url name site s) as [r s1].
    simpl in St. destruct St as (e1 & T1 & A1).
    destruct (IH r s1) as (e2 & T2 & A2).
    exists (e1 ++ e2).
    split; [rewrite T2, T1, app_assoc; reflexivity |].
    rewrite assignments_app, A1, A2. destruct r; reflexivity.
  - assert (St : exists e1,
               trace (snd (new_Worker P script opts s)) = trace s ++ e1 /\
               assignments e1 = []).
    { unfold new_Worker; simpl.
      destruct (Worker_check P _ _ _); simpl; eexists; split; reflexivity. }
    destruct (new_Worker P script opts s) as [r s1].
    simpl in St. destruct St as (e1 & T1 & A1).
    destruct (IH r s1) as (e2 & T2 & A2).
    exists (e1 ++ e2).
    split; [rewrite T2, T1, app_assoc; reflexivity |].
    rewrite assignments_app, A1, A2. reflexivity.
Qed.

(** X2. After any run of importing code, [_worker] holds the object that
    the last call of [startWorker] that returned gave back to the
    importing code; when no call returned, it holds what it held before the
    run.  The assignments made during the run are the values the calls
    returned, one for one and in order. *)
Theorem worker_is_last_returned (c : client) (s : State Rest) :
  let s' := snd (run_client P import_meta_url c s) in
  _worker s' = last (returned_values P import_meta_url c s) (_worker s) /\
  assignments (new_events s s') = returned_values P import_meta_url c s /\
  _worker s' = last (assignments (new_events s s')) (_worker s).
Proof.
  cbv zeta.
  destruct (extends_run_client c s) as (evs & _ & _ & T & _ & _ & _ & _ & W).
  destruct (run_client_returned c s) as (evs' & T' & A').
  assert (E : evs = evs')
    by (rewrite T in T'; apply app_inv_head in T'; exact T').
  subst evs'.
  rewrite (@new_events_app _ _ _ _ T), A'. rewrite A' in W. auto.
Qed.

(** X3. Over any run of importing code, however many calls of
    [startWorker] it makes and whatever else it spawns in between, the
    objects assigned to [_worker] are pairwise distinct Worker objects:
    each is the object of a thread spawned during the run, and they come
    in the order in which their threads were spawned. *)
Theorem stored_handles_distinct (c : client) (s : State Rest) :
  let s' := snd (run_client P import_meta_url c s) in
  NoDup (assignments (new_events s s')) /\
  exists ids,
    assignments (new_events s s') = map VWorker ids /\
    StronglySorted lt ids /\
    Forall (fun id => nth_error (threads s) id = None /\
                      nth_error (threads s') id <> None) ids.
Proof.
  cbv zeta.
  destruct (extends_run_client c s) as (evs & more & ids & T & _ & A & S & F & _).
  rewrite (@new_events_app _ _ _ _ T), A.
  split; [apply StronglySorted_lt_NoDup; exact S |].
  exists ids. repeat split; trivial.
  eapply Forall_impl; [| exact F]. simpl. intros id [Lo Hi]. split.
  - apply nth_error_None. exact Lo.
  - apply nth_error_Some. exact Hi.
Qed.

(** ** The thread behind the remembered handle *)


End RunProperties.

(** * The sample process, continued *)

Example sample_client_run :
  fst (run_client permissive_platform lib_url sample_client fresh_process)
    = Normal (VWorker 2) /\
  _worker (snd (run_client permissive_platform lib_url sample_client fresh_process))
    = VWorker 2 /\
  assignments (trace (snd (run_client permissive_platform lib_url
                             sample_client fresh_process)))
    = [VWorker 0; VWorker 2] /\
  map name (map options (threads (snd (run_client permissive_platform lib_url
                                         sample_client fresh_process))))
    = ["wasm_thread"; "other"; "wasm_thread"].
Proof. repeat split. Qed.

Example sample_client_returned :
  returned_values permissive_platform lib_url sample_client fresh_process
    = [VWorker 0; VWorker 2].
Proof. reflexivity. Qed.

Lemma startWorker_propagates_URL_failure_witness :
  let e := VError "TypeError" "Invalid base URL" in
  let s1 := log (ENewURL "./web_worker_module.js" srcdoc_url) fresh_process in
  new_URL permissive_platform "./web_worker_module.js" srcdoc_url fresh_process
    = (Throw e, s1) /\
  (startWorker permissive_platform srcdoc_url fresh_process = (Throw e, s1) /\
   worker_requests (new_events fresh_process s1) = [] /\
   assignments (new_events fresh_process s1) = [] /\
   new_threads fresh_process s1 = [] /\
   _worker s1 = _worker fresh_process /\ rest s1 = rest fresh_process).
Proof.
  cbv zeta. split; [reflexivity |].
  apply (@startWorker_propagates_URL_failure
           permissive_platform unit srcdoc_url fresh_process).
  reflexivity.
Defined.

Lemma startWorker_returns_when_constructors_do_witness :
  let url := VURL "https://cdn.example/pkg/web_worker_module.js" in
  let s1 := log (ENewURL "./web_worker_module.js" lib_url) after_one in
  let s2 := snd (new_Worker permissive_platform url
                   {| type := "module"; name := "wasm_thread" |} s1) in
  new_URL permissive_platform "./web_worker_module.js" lib_url after_one
    = (Normal url, s1) /\
  new_Worker permissive_platform url
    {| type := "module"; name := "wasm_thread" |} s1
    = (Normal (VWorker 1), s2) /\
  (startWorker permissive_platform lib_url after_one
     = (Normal (VWorker 1),
        log (EAssign_worker (VWorker 1)) (set_worker (VWorker 1) s2)) /\
   threads (snd (startWorker permissive_platform lib_url after_one))
     = threads s2 /\
   rest (snd (startWorker permissive_platform lib_url after_one))
     = rest after_one).
Proof.
  cbv zeta. split; [reflexivity |]. split; [reflexivity |].
  apply (@startWorker_returns_when_constructors_do
           permissive_platform unit lib_url after_one
           (log (ENewURL "./web_worker_module.js" lib_url) after_one)
           (snd (new_Worker permissive_platform
                   (VURL "https://cdn.example/pkg/web_worker_module.js")
                   {| type := "module"; name := "wasm_thread" |}
                   (log (ENewURL "./web_worker_module.js" lib_url) after_one)))
           (VURL "https://cdn.example/pkg/web_worker_module.js")
           (VWorker 1));
    reflexivity.
Defined.

